(** * A shallow embedding of the [useFetch] React hook (src/index.js)

    The hook is modelled as a state machine.  The React state cells
    ([url], [data], [loading], [error], [page]) and the refs
    ([cacheRef], [batchedRequestsRef]) are fields of [state]; the
    asynchronous parts of [fetchData] become explicit records:

    - an [attempt] is one call [fetchData(abortController, retryCount)]
      with the [url] its [useCallback] closure captured;
    - a pending request is an [attempt] suspended at
      [await axios(...)]; it resumes through [complete];
    - a scheduled retry is the [setTimeout] of line 79.

    The scheduler picks the next [event]: a pending request resolves, a
    retry timer fires, the poll interval ticks, or the URL or the page
    changes.  Each [AbortController] is a number; the effect
    cleanup of lines 113-121 adds the current one to [st_aborted].

    The configuration object is assumed stable across renders (the caller
    memoises [headers] and [transformData]), so [fetchData] and the effect
    of lines 102-122 are renewed only when [url] changes.  axios is taken
    in its 1.x form: an aborted request rejects with a [CanceledError],
    which [axios.isAxiosError] accepts. *)

From Stdlib Require Import List Bool Arith Ascii Lia.
From stdpp Require Import base gmap list strings pretty.
Import ListNotations.
Open Scope list_scope.
Local Set Warnings "-register-all".

(** ** JavaScript values *)

Inductive value :=
| VNull
| VBool (b : bool)
| VNum (z : Z)
| VStr (s : string)
| VArr (l : list value)
| VBuiltin (name : string).
    (** an object or function of the engine, such as [Object.prototype]
        or [Object.prototype.toString] *)

(** JavaScript truthiness, as used by [cacheRef.current[url]] (line 36),
    [error.response?.data || ...] (line 82) and [pollInterval ? ...]. *)
Definition truthy (v : value) : bool :=
  match v with
  | VNull => false
  | VBool b => b
  | VNum z => negb (Z.eqb z 0)
  | VStr s => negb (String.eqb s "")
  | VArr _ => true
  | VBuiltin _ => true
  end.

(** ** Options of the hook (lines 5-19) *)

Record config := {
  cfg_transformData : value -> string + value;
    (** [inl msg]: the transform throws [Error(msg)] *)
  cfg_retries : nat;
  cfg_retryDelay : nat;
  cfg_cache : bool;
  cfg_pollInterval : option nat;
  cfg_batchSize : nat;
  cfg_onPageChange : bool;            (** callback provided *)
  cfg_onBatchedResponse : option (list value -> string + value);
    (** [inl msg]: the callback throws [Error(msg)] *)
  cfg_onAuthenticationError : bool    (** callback provided *)
}.

(** ** Outcome of [await axios({... signal: abortController.signal})] *)

Inductive outcome :=
| OSuccess (raw : value)                              (** [response.data] *)
| OHttpError (status : Z) (body : value) (code : string)
    (** rejected with [error.response] set *)
| ONetworkError (code : string)                       (** no response *)
| OCanceled.                                          (** [CanceledError] *)

(** [error.response?.status] of a rejected request. *)
Definition response_status (o : outcome) : option Z :=
  match o with
  | OHttpError s _ _ => Some s
  | _ => None
  end.

(** [error.response?.data] of a rejected request. *)
Definition response_data (o : outcome) : value :=
  match o with
  | OHttpError _ b _ => b
  | _ => VNull
  end.

(** [error.code] of a rejected request. *)
Definition error_code (o : outcome) : string :=
  match o with
  | OHttpError _ _ c => c
  | ONetworkError c => c
  | _ => "ERR_CANCELED"
  end.

(** ** The [error] state *)

Record fetch_error := {
  err_message : value;
  err_status : option Z;
  err_type : string
}.

(** ** Observable interactions of the hook *)

Inductive effect :=
| LRequest (url : string) (retryCount : nat)   (** a call to [axios] *)
| LSetTimeout (delay : nat)                    (** line 79 *)
| LAuthenticationError                         (** line 75 *)
| LPageChange (pageNumber : nat).              (** line 130 *)

(** One invocation [fetchData(abortController, retryCount)] of the
    closure created for [url]. *)
Record attempt := {
  at_ctrl : nat;
  at_url : string;
  at_retry : nat
}.

Record timer := {
  tm_call : attempt;
  tm_delay : nat
}.

Record state := {
  st_url : string;
  st_data : value;
  st_loading : bool;
  st_error : option fetch_error;
  st_page : nat;
  st_cache : gmap string value;          (** [cacheRef.current] *)
  st_batch : list value;                 (** [batchedRequestsRef.current] *)
  st_ctrl : nat;                         (** the effect's [abortController] *)
  st_aborted : gset nat;                 (** aborted controllers *)
  st_pending : list attempt;             (** requests awaiting axios *)
  st_timers : list timer;                (** scheduled retries *)
  st_log : list effect
}.

(** ** React state setters and ref writes *)

Definition setUrl (u : string) (st : state) : state :=
  {| st_url := u; st_data := st_data st; st_loading := st_loading st;
     st_error := st_error st; st_page := st_page st; st_cache := st_cache st;
     st_batch := st_batch st; st_ctrl := st_ctrl st;
     st_aborted := st_aborted st; st_pending := st_pending st;
     st_timers := st_timers st; st_log := st_log st |}.

Definition setData (d : value) (st : state) : state :=
  {| st_url := st_url st; st_data := d; st_loading := st_loading st;
     st_error := st_error st; st_page := st_page st; st_cache := st_cache st;
     st_batch := st_batch st; st_ctrl := st_ctrl st;
     st_aborted := st_aborted st; st_pending := st_pending st;
     st_timers := st_timers st; st_log := st_log st |}.

Definition setLoading (b : bool) (st : state) : state :=
  {| st_url := st_url st; st_data := st_data st; st_loading := b;
     st_error := st_error st; st_page := st_page st; st_cache := st_cache st;
     st_batch := st_batch st; st_ctrl := st_ctrl st;
     st_aborted := st_aborted st; st_pending := st_pending st;
     st_timers := st_timers st; st_log := st_log st |}.

Definition setError (e : option fetch_error) (st : state) : state :=
  {| st_url := st_url st; st_data := st_data st; st_loading := st_loading st;
     st_error := e; st_page := st_page st; st_cache := st_cache st;
     st_batch := st_batch st; st_ctrl := st_ctrl st;
     st_aborted := st_aborted st; st_pending := st_pending st;
     st_timers := st_timers st; st_log := st_log st |}.

Definition setPage (n : nat) (st : state) : state :=
  {| st_url := st_url st; st_data := st_data st; st_loading := st_loading st;
     st_error := st_error st; st_page := n; st_cache := st_cache st;
     st_batch := st_batch st; st_ctrl := st_ctrl st;
     st_aborted := st_aborted st; st_pending := st_pending st;
     st_timers := st_timers st; st_log := st_log st |}.

Definition set_cache (c : gmap string value) (st : state) : state :=
  {| st_url := st_url st; st_data := st_data st; st_loading := st_loading st;
     st_error := st_error st; st_page := st_page st; st_cache := c;
     st_batch := st_batch st; st_ctrl := st_ctrl st;
     st_aborted := st_aborted st; st_pending := st_pending st;
     st_timers := st_timers st; st_log := st_log st |}.

Definition set_batch (b : list value) (st : state) : state :=
  {| st_url := st_url st; st_data := st_data st; st_loading := st_loading st;
     st_error := st_error st; st_page := st_page st; st_cache := st_cache st;
     st_batch := b; st_ctrl := st_ctrl st;
     st_aborted := st_aborted st; st_pending := st_pending st;
     st_timers := st_timers st; st_log := st_log st |}.

Definition set_controller (c : nat) (ab : gset nat) (st : state) : state :=
  {| st_url := st_url st; st_data := st_data st; st_loading := st_loading st;
     st_error := st_error st; st_page := st_page st; st_cache := st_cache st;
     st_batch := st_batch st; st_ctrl := c;
     st_aborted := ab; st_pending := st_pending st;
     st_timers := st_timers st; st_log := st_log st |}.

Definition set_pending (p : list attempt) (st : state) : state :=
  {| st_url := st_url st; st_data := st_data st; st_loading := st_loading st;
     st_error := st_error st; st_page := st_page st; st_cache := st_cache st;
     st_batch := st_batch st; st_ctrl := st_ctrl st;
     st_aborted := st_aborted st; st_pending := p;
     st_timers := st_timers st; st_log := st_log st |}.

Definition set_timers (t : list timer) (st : state) : state :=
  {| st_url := st_url st; st_data := st_data st; st_loading := st_loading st;
     st_error := st_error st; st_page := st_page st; st_cache := st_cache st;
     st_batch := st_batch st; st_ctrl := st_ctrl st;
     st_aborted := st_aborted st; st_pending := st_pending st;
     st_timers := t; st_log := st_log st |}.

Definition emit (e : effect) (st : state) : state :=
  {| st_url := st_url st; st_data := st_data st; st_loading := st_loading st;
     st_error := st_error st; st_page := st_page st; st_cache := st_cache st;
     st_batch := st_batch st; st_ctrl := st_ctrl st;
     st_aborted := st_aborted st; st_pending := st_pending st;
     st_timers := st_timers st; st_log := st_log st ++ [e] |}.

(** [abortController.signal.aborted] *)
Definition aborted (st : state) (c : nat) : bool :=
  bool_decide (c ∈ st_aborted st).

(** ** [fetchData], up to [await axios(...)] (lines 32-50) *)

(** The property names an object created by [{}] inherits from
    [Object.prototype]. *)
Definition object_prototype_keys : list string :=
  ["__proto__"; "__defineGetter__"; "__defineSetter__"; "__lookupGetter__";
   "__lookupSetter__"; "constructor"; "hasOwnProperty"; "isPrototypeOf";
   "propertyIsEnumerable"; "toLocaleString"; "toString"; "valueOf"].

Definition inherited_key (u : string) : bool :=
  existsb (String.eqb u) object_prototype_keys.

(** [cacheRef.current[u]] for the object [{}] of line 27 ([None] is
    [undefined]): an own property first, else the member inherited from
    [Object.prototype] (a function); ["__proto__"] is an accessor of
    [Object.prototype] that returns the prototype itself. *)
Definition cache_get (c : gmap string value) (u : string) : option value :=
  if String.eqb u "__proto__" then Some (VBuiltin "Object.prototype")
  else match c !! u with
       | Some v => Some v
       | None =>
           if inherited_key u then Some (VBuiltin ("Object.prototype." +:+ u))
           else None
       end.

(** [cacheRef.current[u] = v] (line 58): creates or replaces an own
    property, except for ["__proto__"], whose inherited setter ignores a
    primitive [v] and never creates an own property.  (With an array or
    [null] it would replace the prototype of the store; the model keeps
    [Object.prototype].) *)
Definition cache_set (u : string) (v : value) (c : gmap string value)
    : gmap string value :=
  if String.eqb u "__proto__" then c else <[u := v]> c.

(** [cache && cacheRef.current[url]]: the value read when the test is
    truthy. *)
Definition cache_hit (cfg : config) (st : state) (u : string) : option value :=
  if cfg_cache cfg then
    match cache_get (st_cache st) u with
    | Some v => if truthy v then Some v else None
    | None => None
    end
  else None.

(** Lines 33-50.  On a cache hit, [setData] receives the value read; when
    that value is an inherited function, React would call it as a state
    updater: the model records the value itself. *)
Definition fetchData (cfg : config) (st : state) (a : attempt) : state :=
  let st := setError None (setLoading true st) in
  match cache_hit cfg st (at_url a) with
  | Some v => setLoading false (setData v st)
  | None =>
      set_pending (st_pending st ++ [a])
        (emit (LRequest (at_url a) (at_retry a)) st)
  end.

(** The right-hand side of line 64 when the batch buffer is flushed:
    [inl msg] when [onBatchedResponse] throws [Error(msg)]. *)
Definition batched_response (cfg : config) (buf : list value) : string + value :=
  match cfg_onBatchedResponse cfg with
  | Some f => f buf
  | None => inr (VArr buf)
  end.

(** The object literal of lines 88-91, for an exception that is not an
    axios error. *)
Definition general_error (msg : string) : fetch_error :=
  {| err_message := VStr msg; err_status := None; err_type := "general" |}.

(** Lines 52-71: the [try] block after the response arrived.  An
    exception thrown by [transformData] or [onBatchedResponse] skips the
    rest of the block and lands in lines 88-91. *)
Definition on_response (cfg : config) (st : state) (a : attempt)
    (raw : value) : state :=
  match cfg_transformData cfg raw with
  | inl msg => setError (Some (general_error msg)) st
  | inr transformedData =>
      if Nat.eqb (cfg_batchSize cfg) 1 then
        let st := setData transformedData st in
        let st := if cfg_cache cfg
                  then set_cache (cache_set (at_url a) transformedData
                                            (st_cache st)) st
                  else st in
        setError None st
      else
        let st := set_batch (st_batch st ++ [transformedData]) st in
        if Nat.leb (cfg_batchSize cfg) (length (st_batch st)) then
          match batched_response cfg (st_batch st) with
          | inr batchedResponse =>
              setError None (set_batch [] (setData batchedResponse st))
          | inl msg => setError (Some (general_error msg)) st
          end
        else setError None st
  end.

(** The object literal of lines 81-85. *)
Definition terminal_error (o : outcome) : fetch_error :=
  {| err_message := (let m := response_data o in
                     if truthy m then m
                     else VStr "An unknown error occurred");
     err_status := response_status o;
     err_type := error_code o |}.

(** Lines 73-86: the [catch] branch for an axios error. *)
Definition on_axios_error (cfg : config) (st : state) (a : attempt)
    (o : outcome) : state :=
  let st :=
    if bool_decide (response_status o = Some 401%Z)
       && cfg_onAuthenticationError cfg
    then emit LAuthenticationError st else st in
  if Nat.ltb (at_retry a) (cfg_retries cfg) then
    let d := cfg_retryDelay cfg * (at_retry a + 1) in
    set_timers (st_timers st ++
                [{| tm_call := {| at_ctrl := at_ctrl a; at_url := at_url a;
                                  at_retry := at_retry a + 1 |};
                    tm_delay := d |}])
      (emit (LSetTimeout d) st)
  else if negb (aborted st (at_ctrl a)) then
    setError (Some (terminal_error o)) st
  else st.

(** The continuation of [fetchData] once [await axios(...)] settles with
    outcome [o], including the [finally] block (lines 93-97). *)
Definition complete (cfg : config) (st : state) (a : attempt)
    (o : outcome) : state :=
  let st :=
    match o with
    | OSuccess raw => on_response cfg st a raw
    | _ => on_axios_error cfg st a o
    end in
  if Nat.eqb (at_retry a) 0 then setLoading false st else st.

(** ** The effect of lines 102-122 *)

(** Body of the effect for a fresh [abortController] [c]: the fetch of
    line 109.  The [setInterval] of line 111 is the [EvPoll] event below;
    the unused [axios.CancelToken] of line 106 has no observable effect. *)
Definition run_effect (cfg : config) (st : state) : state :=
  fetchData cfg st {| at_ctrl := st_ctrl st; at_url := st_url st;
                      at_retry := 0 |}.

(** A commit after [url] changed: the cleanup of the previous effect
    aborts its controller (line 114), then the effect runs again with a
    new one (line 108). *)
Definition rerun_effect (cfg : config) (st : state) : state :=
  let st := set_controller (S (st_ctrl st))
                           ({[st_ctrl st]} ∪ st_aborted st) st in
  run_effect cfg st.

(** After an event handler: React re-renders, and the effect re-runs only
    when its dependency [url] changed (strings compare with [Object.is]). *)
Definition commit (cfg : config) (old_url : string) (st : state) : state :=
  if String.eqb (st_url st) old_url then st else rerun_effect cfg st.

(** ** [fetchPage] and [fetchMore] (lines 124-137) *)

Definition fetchPage (cfg : config) (st : state) (pageNumber : nat) : state :=
  let old := st_url st in
  let nextPageUrl := old +:+ "?page=" +:+ pretty pageNumber in
  let st := setPage pageNumber (setUrl nextPageUrl st) in
  let st := if cfg_onPageChange cfg then emit (LPageChange pageNumber) st
            else st in
  commit cfg old st.

Definition fetchMore (cfg : config) (st : state) : state :=
  let nextPageNumber := st_page st + 1 in
  fetchPage cfg st nextPageNumber.

(** ** Events and the step function *)

Inductive event :=
| EvResolve (i : nat) (o : outcome)   (** the [i]-th pending request settles *)
| EvTimer (i : nat)                   (** the [i]-th retry timer fires *)
| EvPoll                              (** a tick of the [setInterval] *)
| EvSetUrl (u : string)
    (** [setUrl(u)]; the hook does not return [setUrl], so its callers
        reach it only through [fetchPage] and [fetchMore] *)
| EvFetchPage (n : nat)
| EvFetchMore.

(** [pollInterval ? setInterval(...) : null] *)
Definition polling (cfg : config) : bool :=
  match cfg_pollInterval cfg with
  | Some p => negb (Nat.eqb p 0)
  | None => false
  end.

(** An aborted signal makes axios reject with a [CanceledError], whatever
    the server would have answered. *)
Definition delivered (st : state) (a : attempt) (o : outcome) : outcome :=
  if aborted st (at_ctrl a) then OCanceled else o.

Definition step (cfg : config) (st : state) (ev : event) : option state :=
  match ev with
  | EvResolve i o =>
      a ← st_pending st !! i;
      let st' := set_pending (delete i (st_pending st)) st in
      Some (complete cfg st' a (delivered st a o))
  | EvTimer i =>
      t ← st_timers st !! i;
      Some (fetchData cfg (set_timers (delete i (st_timers st)) st) (tm_call t))
  | EvPoll =>
      if polling cfg then Some (run_effect cfg st) else None
  | EvSetUrl u => Some (commit cfg (st_url st) (setUrl u st))
  | EvFetchPage n => Some (fetchPage cfg st n)
  | EvFetchMore => Some (fetchMore cfg st)
  end.

Fixpoint run (cfg : config) (st : state) (evs : list event) : option state :=
  match evs with
  | [] => Some st
  | ev :: evs => st' ← step cfg st ev; run cfg st' evs
  end.

(** Mount: the initial [useState] values (lines 21-29), then the first
    run of the effect with controller 0. *)
Definition initial (initialUrl : string) : state :=
  {| st_url := initialUrl; st_data := VNull; st_loading := true;
     st_error := None; st_page := 1; st_cache := ∅; st_batch := [];
     st_ctrl := 0; st_aborted := ∅; st_pending := []; st_timers := [];
     st_log := [] |}.

Definition mount (cfg : config) (initialUrl : string) : state :=
  run_effect cfg (initial initialUrl).

Inductive reachable (cfg : config) (initialUrl : string) : state -> Prop :=
| reach_mount : reachable cfg initialUrl (mount cfg initialUrl)
| reach_step st ev st' :
    reachable cfg initialUrl st -> step cfg st ev = Some st' ->
    reachable cfg initialUrl st'.

(** ** Configurations used in the concrete runs *)

Definition identity_transform (v : value) : string + value := inr v.

Definition mk_config (retries retryDelay : nat) (cache : bool)
    (pollInterval : option nat) (batchSize : nat) : config :=
  {| cfg_transformData := identity_transform; cfg_retries := retries;
     cfg_retryDelay := retryDelay; cfg_cache := cache;
     cfg_pollInterval := pollInterval; cfg_batchSize := batchSize;
     cfg_onPageChange := true; cfg_onBatchedResponse := None;
     cfg_onAuthenticationError := true |}.

Definition http500 : outcome := OHttpError 500 (VStr "boom") "ERR_BAD_RESPONSE".

Definition supersession_run : list event :=
  [EvPoll; EvResolve 0 http500; EvResolve 0 (OSuccess (VStr "dataA"));
   EvFetchPage 2; EvResolve 0 (OSuccess (VStr "data2")); EvTimer 0].

Definition retry_then_success_run : list event :=
  [EvResolve 0 (ONetworkError "ECONNABORTED"); EvTimer 0;
   EvResolve 0 (OSuccess (VStr "ok"))].

Definition cancel_run : list event :=
  [EvFetchPage 2; EvResolve 0 (OSuccess (VStr "late"))].

(** ** Counting observable interactions *)

Definition is_auth (e : effect) : bool :=
  match e with LAuthenticationError => true | _ => false end.

Definition count_auth (l : list effect) : nat := length (List.filter is_auth l).



Definition is_request (e : effect) : bool :=
  match e with LRequest _ _ => true | _ => false end.

Definition count_requests (l : list effect) : nat := length (List.filter is_request l).

(** ** A chain of failed attempts *)





(** * Properties *)

Ltac unfold_setters :=
  unfold setUrl, setData, setLoading, setError, setPage, set_cache,
    set_batch, set_controller, set_pending, set_timers, emit in *.

(** C1 (code_bug).  Supersession: [retries = 1], [cache = true],
    polling.  A poll tick sends a second request for "A"; the mount
    request fails with HTTP 500 and schedules a retry, the poll request
    succeeds and fills the cache.  Then [fetchPage(2)] moves to
    "A?page=2", whose request succeeds.  When the retry timer of the
    superseded cycle fires, its [fetchData] finds "A" in the cache and
    writes A's data, although the locator is "A?page=2". *)
Lemma supersession_stale_retry :
  let cfg := mk_config 1 1000 true (Some 5000) 1 in
  match run cfg (mount cfg "A") (removelast supersession_run),
        run cfg (mount cfg "A") supersession_run with
  | Some before, Some after =>
      st_url before = "A?page=2" /\ st_data before = VStr "data2" /\
      st_url after = "A?page=2" /\ st_data after = VStr "dataA" /\
      st_pending after = [] /\ st_timers after = []
  | _, _ => False
  end.
Proof. vm_compute. repeat split; reflexivity. Qed.

(** C3 (code_bug).  With [retries = 1], a first attempt that fails clears
    [loading]; the retry attempt sets it back to [true], and since the
    [finally] block only clears it for [retryCount === 0], it stays
    [true] after the retry succeeded and nothing is outstanding. *)
Lemma retry_reraises_loading :
  let cfg := mk_config 1 1000 false None 1 in
  match run cfg (mount cfg "A") (firstn 1 retry_then_success_run),
        run cfg (mount cfg "A") (firstn 2 retry_then_success_run),
        run cfg (mount cfg "A") retry_then_success_run with
  | Some s1, Some s2, Some s3 =>
      st_loading s1 = false /\ st_loading s2 = true /\
      st_loading s3 = true /\ st_data s3 = VStr "ok" /\
      st_pending s3 = [] /\ st_timers s3 = []
  | _, _, _ => False
  end.
Proof. vm_compute. repeat split; reflexivity. Qed.

(** C6 (code_bug).  With [retries = 1], the request for "A" is aborted
    by [fetchPage(2)]; it rejects with a [CanceledError], which is an
    axios error, so a retry for "A" is scheduled (and made when its timer
    fires). *)
Lemma canceled_request_is_retried :
  let cfg := mk_config 1 1000 false None 1 in
  match run cfg (mount cfg "A") cancel_run,
        run cfg (mount cfg "A") (cancel_run ++ [EvTimer 0]) with
  | Some st, Some st' =>
      st_timers st = [{| tm_call := {| at_ctrl := 0; at_url := "A";
                                       at_retry := 1 |};
                         tm_delay := 1000 |}] /\
      st_log st = [LRequest "A" 0; LPageChange 2; LRequest "A?page=2" 0;
                   LSetTimeout 1000] /\
      st_log st' = st_log st ++ [LRequest "A" 1]
  | _, _ => False
  end.
Proof. vm_compute. repeat split; reflexivity. Qed.

(** C7.  When an attempt fails with HTTP status 401, the
    [onAuthenticationError] callback is invoked exactly once if it is
    provided (never otherwise), for every retry count and every retry
    budget, i.e. whether a retry follows or the error is terminal. *)
Theorem auth_callback_once_per_401 (cfg : config) (st : state) (a : attempt)
    (body : value) (code : string) :
  count_auth (st_log (complete cfg st a (OHttpError 401 body code))) =
  count_auth (st_log st) + (if cfg_onAuthenticationError cfg then 1 else 0).
Proof.
  unfold complete, on_axios_error, count_auth; cbn [response_status].
  rewrite bool_decide_eq_true_2 by reflexivity; cbn [andb].
  destruct (cfg_onAuthenticationError cfg);
    destruct (Nat.ltb _ _); try destruct (negb _); destruct (Nat.eqb _ 0);
    unfold_setters; cbn [st_log]; rewrite ?List.filter_app, ?length_app;
    cbn; lia.
Qed.

Ltac split_conj := repeat match goal with |- _ /\ _ => split end.

(** Projections of a state built by setters, reduced one field at a time
    (unfolding the setters wholesale would copy the state for each field). *)
Ltac simpl_state :=
  cbn [st_url st_data st_loading st_error st_page st_cache st_batch st_ctrl
       st_aborted st_pending st_timers st_log tm_call tm_delay
       at_ctrl at_url at_retry
       setUrl setData setLoading setError setPage set_cache set_batch
       set_controller set_pending set_timers emit].

(** ** Retry chains (C2) *)

Lemma cache_hit_cache (cfg : config) (st st' : state) (u : string) :
  st_cache st' = st_cache st -> cache_hit cfg st' u = cache_hit cfg st u.
Proof. intros H. unfold cache_hit. rewrite H. reflexivity. Qed.







Lemma fetchData_miss (cfg : config) (st : state) (a : attempt) :
  cache_hit cfg st (at_url a) = None ->
  fetchData cfg st a =
  set_pending (st_pending st ++ [a])
    (emit (LRequest (at_url a) (at_retry a)) (setError None (setLoading true st))).
Proof.
  intros H. unfold fetchData.
  rewrite (cache_hit_cache cfg st) by reflexivity. rewrite H.
  reflexivity.
Qed.








Lemma count_requests_app (l l' : list effect) :
  count_requests (l ++ l') = count_requests l + count_requests l'.
Proof. unfold count_requests. rewrite List.filter_app, length_app. reflexivity. Qed.




(** ** Frame lemmas: which operations touch the cache and the buffer *)

Lemma fetchData_frame (cfg : config) (st : state) (a : attempt) :
  st_cache (fetchData cfg st a) = st_cache st /\
  st_batch (fetchData cfg st a) = st_batch st.
Proof.
  unfold fetchData. destruct (cache_hit _ _ _); simpl_state; split; reflexivity.
Qed.

Lemma on_axios_error_frame (cfg : config) (st : state) (a : attempt)
    (o : outcome) :
  st_cache (on_axios_error cfg st a o) = st_cache st /\
  st_batch (on_axios_error cfg st a o) = st_batch st.
Proof.
  unfold on_axios_error.
  destruct (bool_decide _ && _), (_ <? _); try destruct (negb _);
    simpl_state; split; reflexivity.
Qed.

Lemma rerun_effect_frame (cfg : config) (st : state) :
  st_cache (rerun_effect cfg st) = st_cache st /\
  st_batch (rerun_effect cfg st) = st_batch st.
Proof.
  unfold rerun_effect, run_effect; cbv zeta.
  rewrite (proj1 (fetchData_frame _ _ _)), (proj2 (fetchData_frame _ _ _)).
  simpl_state. split; reflexivity.
Qed.

Lemma commit_frame (cfg : config) (old : string) (st : state) :
  st_cache (commit cfg old st) = st_cache st /\
  st_batch (commit cfg old st) = st_batch st.
Proof.
  unfold commit. destruct (String.eqb _ _); [split; reflexivity |].
  apply rerun_effect_frame.
Qed.

Lemma fetchPage_frame (cfg : config) (st : state) (n : nat) :
  st_cache (fetchPage cfg st n) = st_cache st /\
  st_batch (fetchPage cfg st n) = st_batch st.
Proof.
  unfold fetchPage; cbv zeta.
  rewrite (proj1 (commit_frame _ _ _)), (proj2 (commit_frame _ _ _)).
  destruct (cfg_onPageChange cfg); simpl_state; split; reflexivity.
Qed.

Lemma complete_axios_frame (cfg : config) (st : state) (a : attempt)
    (o : outcome) :
  (forall raw, o <> OSuccess raw) ->
  st_cache (complete cfg st a o) = st_cache st /\
  st_batch (complete cfg st a o) = st_batch st.
Proof.
  intros Ho. unfold complete; cbv zeta.
  assert (He : match o with
               | OSuccess raw => on_response cfg st a raw
               | _ => on_axios_error cfg st a o
               end = on_axios_error cfg st a o)
    by (destruct o; [exfalso; eapply Ho; reflexivity | ..]; reflexivity).
  rewrite He.
  destruct (at_retry a =? 0); simpl_state; apply on_axios_error_frame.
Qed.








(** ** Invariants of runs *)

Lemma run_invariant (P : state -> Prop) (cfg : config) :
  (forall st ev st', P st -> step cfg st ev = Some st' -> P st') ->
  forall evs st st', P st -> run cfg st evs = Some st' -> P st'.
Proof.
  intros Hstep evs. induction evs as [| ev evs IH]; intros st st' Hp Hr.
  - cbn in Hr. injection Hr as <-. exact Hp.
  - cbn in Hr. destruct (step cfg st ev) as [s |] eqn:Hs; cbn in Hr; [| discriminate].
    apply (IH s); [eapply Hstep; eassumption | exact Hr].
Qed.


(** ** Batching (C5, C9) *)













(** ** Caching (C4, C10) *)





(** C4 (corrected).  With [cache = true] but [batchSize = 2], two starts
    on "A" (the mount, then a poll tick after the first request succeeded)
    both go to the network: the batched path never fills the cache. *)
Lemma cache_batched_refetches :
  let cfg := mk_config 0 1000 true (Some 5000) 2 in
  match run cfg (mount cfg "A") [EvResolve 0 (OSuccess (VStr "x")); EvPoll] with
  | Some st =>
      count_requests (st_log st) = 2 /\
      st_pending st = [{| at_ctrl := 0; at_url := "A"; at_retry := 0 |}]
  | None => False
  end.
Proof. vm_compute. split; reflexivity. Qed.

(** C4, as amended.  With [cache = true] and [batchSize = 1], take a start
    [fetchData] on a locator [L] that is not cached; its request is live
    and succeeds with a response whose transformed value [v] is truthy.
    Then a second start on [L] sets [data] to [v] and [loading] to [false]
    at once, and issues no request: the two starts made one request. *)
Theorem cache_second_start_no_request (cfg : config) (st : state)
    (a a' : attempt) (raw v : value) :
  cfg_cache cfg = true -> cfg_batchSize cfg = 1 ->
  cache_hit cfg st (at_url a) = None -> at_ctrl a ∉ st_aborted st ->
  cfg_transformData cfg raw = inr v -> truthy v = true ->
  at_url a' = at_url a ->
  exists st2,
    step cfg (fetchData cfg st a) (EvResolve (length (st_pending st)) (OSuccess raw))
      = Some st2 /\
    count_requests (st_log (fetchData cfg st2 a')) = count_requests (st_log st) + 1 /\
    st_data (fetchData cfg st2 a') = v /\
    st_loading (fetchData cfg st2 a') = false /\
    st_pending (fetchData cfg st2 a') = st_pending st2.
Proof.
  intros Hcache Hb Hmiss Hab Ht Hv Hu.
  assert (Hp : String.eqb (at_url a) "__proto__" = false).
  { destruct (String.eqb (at_url a) "__proto__") eqn:E; [| reflexivity].
    unfold cache_hit, cache_get in Hmiss. rewrite Hcache, E in Hmiss.
    discriminate Hmiss. }
  rewrite (fetchData_miss cfg st a Hmiss).
  eexists. split.
  { unfold step. simpl_state.
    rewrite list_lookup_middle by reflexivity. cbn [mbind option_bind].
    reflexivity. }
  assert (Hd : delivered
                 (set_pending (st_pending st ++ [a])
                    (emit (LRequest (at_url a) (at_retry a))
                       (setError None (setLoading true st)))) a (OSuccess raw)
               = OSuccess raw).
  { unfold delivered, aborted. simpl_state.
    rewrite bool_decide_eq_false_2 by exact Hab. reflexivity. }
  rewrite Hd. simpl_state.
  rewrite (delete_middle (st_pending st) [] a), app_nil_r.
  unfold complete, on_response; cbv zeta. rewrite Ht, Hb, Hcache. cbn [Nat.eqb].
  set (s := if at_retry a =? 0 then _ else _).
  assert (Hs : st_cache s = <[at_url a := v]> (st_cache st) /\
               st_log s = st_log st ++ [LRequest (at_url a) (at_retry a)] /\
               st_pending s = st_pending st).
  { subst s. unfold cache_set. rewrite Hp.
    destruct (at_retry a =? 0); simpl_state; split_conj; reflexivity. }
  destruct Hs as (Hsc & Hsl & Hsp).
  assert (Hhit : cache_hit cfg s (at_url a') = Some v).
  { unfold cache_hit, cache_get. rewrite Hcache, Hsc, Hu, Hp, lookup_insert_eq, Hv.
    reflexivity. }
  unfold fetchData.
  rewrite (cache_hit_cache cfg s (setError None (setLoading true s))) by reflexivity.
  rewrite Hhit. simpl_state. rewrite Hsl, Hsp.
  split_conj; try reflexivity.
  rewrite count_requests_app. reflexivity.
Qed.

Lemma cache_second_start_no_request_witness :
  let cfg := mk_config 0 1000 true None 1 in
  let st := initial "A" in
  let a := {| at_ctrl := 0; at_url := "A"; at_retry := 0 |} in
  (cfg_cache cfg = true /\ cfg_batchSize cfg = 1 /\
   cache_hit cfg st (at_url a) = None /\ (at_ctrl a ∉ st_aborted st) /\
   cfg_transformData cfg (VStr "items") = inr (VStr "items") /\
   truthy (VStr "items") = true /\ at_url a = at_url a) /\
  exists st2,
    step cfg (fetchData cfg st a) (EvResolve (length (st_pending st)) (OSuccess (VStr "items")))
      = Some st2 /\
    count_requests (st_log (fetchData cfg st2 a)) = count_requests (st_log st) + 1 /\
    st_data (fetchData cfg st2 a) = VStr "items" /\
    st_loading (fetchData cfg st2 a) = false /\
    st_pending (fetchData cfg st2 a) = st_pending st2.
Proof.
  intros cfg st a.
  assert (H4 : at_ctrl a ∉ st_aborted st) by (cbn; set_solver).
  split; [split_conj; try reflexivity; exact H4 |].
  apply (cache_second_start_no_request cfg st a a (VStr "items") (VStr "items"));
    try reflexivity; exact H4.
Defined.

(** ** Pagination (C8) *)


(** C8 (code_bug).  [fetchPage] appends the page parameter to the
    current URL, not to the initial one.  After [fetchMore()] (page 2),
    [fetchPage(1)] sets [page] to 1 but requests "...?page=2?page=1",
    not "...?page=1"; each call piles a further suffix on the URL. *)
Lemma fetchPage_appends_to_current :
  let cfg := mk_config 0 1000 false None 1 in
  match run cfg (mount cfg "https://api.test/items") [EvFetchMore; EvFetchPage 1] with
  | Some st =>
      st_page st = 1 /\
      st_url st = "https://api.test/items?page=2?page=1" /\
      st_log st = [LRequest "https://api.test/items" 0; LPageChange 2;
                   LRequest "https://api.test/items?page=2" 0; LPageChange 1;
                   LRequest "https://api.test/items?page=2?page=1" 0]
  | None => False
  end.
Proof. vm_compute. split_conj; reflexivity. Qed.



(** ** The batch buffer across URLs (C9) *)

Ltac simpl_state_in H :=
  cbn [st_url st_data st_loading st_error st_page st_cache st_batch st_ctrl
       st_aborted st_pending st_timers st_log tm_call tm_delay
       at_ctrl at_url at_retry
       setUrl setData setLoading setError setPage set_cache set_batch
       set_controller set_pending set_timers emit] in H.






(** * Further properties of the hook *)

(** ** Abort controllers *)

(** The controllers below the live one are exactly the aborted ones, and
    every pending request and scheduled retry belongs to a controller
    created so far. *)
Definition ctrl_inv (st : state) : Prop :=
  (forall c, c ∈ st_aborted st <-> c < st_ctrl st) /\
  Forall (fun a => at_ctrl a <= st_ctrl st) (st_pending st) /\
  Forall (fun t => at_ctrl (tm_call t) <= st_ctrl st) (st_timers st).

Lemma fetchData_ctrl (cfg : config) (st : state) (a : attempt) :
  st_ctrl (fetchData cfg st a) = st_ctrl st /\
  st_aborted (fetchData cfg st a) = st_aborted st /\
  st_timers (fetchData cfg st a) = st_timers st /\
  (st_pending (fetchData cfg st a) = st_pending st \/
   st_pending (fetchData cfg st a) = st_pending st ++ [a]).
Proof.
  unfold fetchData. destruct (cache_hit _ _ _); simpl_state; split_conj; auto.
Qed.

Lemma complete_ctrl (cfg : config) (st : state) (a : attempt) (o : outcome) :
  st_ctrl (complete cfg st a o) = st_ctrl st /\
  st_aborted (complete cfg st a o) = st_aborted st /\
  st_pending (complete cfg st a o) = st_pending st /\
  (st_timers (complete cfg st a o) = st_timers st \/
   exists t, at_ctrl (tm_call t) = at_ctrl a /\
             st_timers (complete cfg st a o) = st_timers st ++ [t]).
Proof.
  unfold complete; cbv zeta. destruct o as [raw | s b c | c |].
  - unfold on_response.
    destruct (cfg_transformData cfg raw) as [msg | td];
      [| destruct (Nat.eqb _ 1);
         [destruct (cfg_cache cfg) | destruct (Nat.leb _ _); [destruct (batched_response _ _) |]]];
      destruct (at_retry a =? 0); simpl_state; split_conj; auto.
  - unfold on_axios_error.
    destruct (bool_decide _ && _), (_ <? _); try destruct (negb _);
      destruct (at_retry a =? 0); simpl_state; split_conj;
      first [solve [auto] | right; eexists; split; [| reflexivity]; reflexivity].
  - unfold on_axios_error.
    destruct (bool_decide _ && _), (_ <? _); try destruct (negb _);
      destruct (at_retry a =? 0); simpl_state; split_conj;
      first [solve [auto] | right; eexists; split; [| reflexivity]; reflexivity].
  - unfold on_axios_error.
    destruct (bool_decide _ && _), (_ <? _); try destruct (negb _);
      destruct (at_retry a =? 0); simpl_state; split_conj;
      first [solve [auto] | right; eexists; split; [| reflexivity]; reflexivity].
Qed.

Lemma fetchData_ctrl_inv (cfg : config) (st : state) (a : attempt) :
  ctrl_inv st -> at_ctrl a <= st_ctrl st -> ctrl_inv (fetchData cfg st a).
Proof.
  intros (Hab & Hp & Ht) Ha.
  destruct (fetchData_ctrl cfg st a) as (Hc & Hab' & Ht' & Hp').
  unfold ctrl_inv. rewrite Hc, Hab', Ht'. split_conj; [exact Hab | | exact Ht].
  destruct Hp' as [-> | ->]; [exact Hp |].
  apply Forall_app; split; [exact Hp | constructor; [exact Ha | constructor]].
Qed.

Lemma rerun_effect_ctrl_inv (cfg : config) (st : state) :
  ctrl_inv st -> ctrl_inv (rerun_effect cfg st).
Proof.
  intros (Hab & Hp & Ht). unfold rerun_effect, run_effect; cbv zeta.
  apply fetchData_ctrl_inv; [unfold ctrl_inv; simpl_state | simpl_state; lia].
  split_conj.
  - intros c. rewrite elem_of_union, elem_of_singleton, Hab. lia.
  - eapply Forall_impl; [exact Hp |]. cbn. intros; lia.
  - eapply Forall_impl; [exact Ht |]. cbn. intros; lia.
Qed.

Lemma commit_ctrl_inv (cfg : config) (old : string) (st : state) :
  ctrl_inv st -> ctrl_inv (commit cfg old st).
Proof.
  intros H. unfold commit. destruct (String.eqb _ _); [exact H |].
  apply rerun_effect_ctrl_inv, H.
Qed.

Lemma fetchPage_ctrl_inv (cfg : config) (st : state) (n : nat) :
  ctrl_inv st -> ctrl_inv (fetchPage cfg st n).
Proof.
  intros H. unfold fetchPage; cbv zeta. apply commit_ctrl_inv.
  destruct (cfg_onPageChange cfg); unfold ctrl_inv; simpl_state; exact H.
Qed.

Lemma step_ctrl_inv (cfg : config) (st st' : state) (ev : event) :
  ctrl_inv st -> step cfg st ev = Some st' -> ctrl_inv st'.
Proof.
  intros Hinv Hs. destruct ev as [i o | i | | u | n |]; cbn [step] in Hs.
  - destruct (st_pending st !! i) as [a |] eqn:Ha; cbn in Hs; [| discriminate].
    injection Hs as <-. destruct Hinv as (Hab & Hp & Ht).
    assert (Hal : at_ctrl a <= st_ctrl st)
      by (eapply (proj1 (Forall_lookup _ _)) in Hp; [exact Hp | exact Ha]).
    destruct (complete_ctrl cfg (set_pending (delete i (st_pending st)) st) a
                (delivered st a o)) as (Hc & Hab' & Hp' & Ht').
    simpl_state_in Hc; simpl_state_in Hab'; simpl_state_in Hp'; simpl_state_in Ht'.
    unfold ctrl_inv. rewrite Hc, Hab', Hp'. split_conj; [exact Hab | |].
    + apply Forall_delete, Hp.
    + destruct Ht' as [-> | (t & Htc & ->)]; [exact Ht |].
      apply Forall_app; split; [exact Ht | constructor; [lia | constructor]].
  - destruct (st_timers st !! i) as [t |] eqn:Ht0; cbn in Hs; [| discriminate].
    injection Hs as <-. destruct Hinv as (Hab & Hp & Ht).
    assert (Htl : at_ctrl (tm_call t) <= st_ctrl st)
      by (eapply (proj1 (Forall_lookup _ _)) in Ht; [exact Ht | exact Ht0]).
    apply fetchData_ctrl_inv; unfold ctrl_inv; simpl_state; [| exact Htl].
    split_conj; [exact Hab | exact Hp | apply Forall_delete, Ht].
  - destruct (polling cfg); [| discriminate]. injection Hs as <-.
    unfold run_effect. apply fetchData_ctrl_inv; [exact Hinv | cbn; lia].
  - injection Hs as <-. apply commit_ctrl_inv.
    unfold ctrl_inv; simpl_state; exact Hinv.
  - injection Hs as <-. apply fetchPage_ctrl_inv, Hinv.
  - injection Hs as <-. apply fetchPage_ctrl_inv, Hinv.
Qed.

(** X1.  In every run of the hook, the aborted controllers are exactly the
    controllers created before the live one (each URL change aborts the
    live controller and creates the next), so the live controller is
    never aborted; every pending request and scheduled retry uses the live
    controller or an aborted one. *)
Theorem run_controllers (cfg : config) (u : string) (evs : list event)
    (st : state) :
  run cfg (mount cfg u) evs = Some st ->
  (forall c, c ∈ st_aborted st <-> c < st_ctrl st) /\
  Forall (fun a => at_ctrl a <= st_ctrl st) (st_pending st) /\
  Forall (fun t => at_ctrl (tm_call t) <= st_ctrl st) (st_timers st).
Proof.
  intros Hr. apply (run_invariant ctrl_inv cfg
           (fun s ev s' => step_ctrl_inv cfg s s' ev) evs (mount cfg u) st); [| exact Hr].
  unfold mount, run_effect. apply fetchData_ctrl_inv; [| cbn; lia].
  unfold ctrl_inv, initial; cbn. split_conj; [| constructor | constructor].
  intros c. split; [set_solver | lia].
Qed.

Lemma run_controllers_witness :
  let cfg := mk_config 1 1000 false None 1 in
  let st := match run cfg (mount cfg "A") cancel_run with
            | Some st => st | None => initial "A" end in
  run cfg (mount cfg "A") cancel_run = Some st /\
  (forall c, c ∈ st_aborted st <-> c < st_ctrl st) /\
  Forall (fun a => at_ctrl a <= st_ctrl st) (st_pending st) /\
  Forall (fun t => at_ctrl (tm_call t) <= st_ctrl st) (st_timers st).
Proof.
  intros cfg st.
  assert (Hr : run cfg (mount cfg "A") cancel_run = Some st) by (vm_compute; reflexivity).
  split; [exact Hr | exact (run_controllers cfg "A" cancel_run st Hr)].
Defined.

(** ** The cache store *)

Lemma complete_cache_grow (cfg : config) (st : state) (a : attempt) (o : outcome) :
  st_cache (complete cfg st a o) = st_cache st \/
  exists v, st_cache (complete cfg st a o) = <[at_url a := v]> (st_cache st).
Proof.
  destruct o as [raw | | |];
    try (left; eapply proj1; apply complete_axios_frame; intros ? ?; discriminate).
  unfold complete, on_response; cbv zeta.
  destruct (cfg_transformData cfg raw) as [msg | td];
    [| destruct (Nat.eqb _ 1);
       [destruct (cfg_cache cfg) | destruct (Nat.leb _ _); [destruct (batched_response _ _) |]]];
    destruct (at_retry a =? 0); simpl_state; unfold cache_set;
    try destruct (String.eqb _ _); eauto.
Qed.

Lemma step_cache_grow (cfg : config) (st st' : state) (ev : event) :
  step cfg st ev = Some st' ->
  st_cache st' = st_cache st \/
  exists u v, st_cache st' = <[u := v]> (st_cache st).
Proof.
  intros Hs. destruct ev as [i o | i | | u | n |]; cbn [step] in Hs.
  - destruct (st_pending st !! i) as [a |]; cbn in Hs; [| discriminate].
    injection Hs as <-.
    destruct (complete_cache_grow cfg (set_pending (delete i (st_pending st)) st) a
                (delivered st a o)) as [H | [v H]]; simpl_state_in H; eauto.
  - destruct (st_timers st !! i) as [t |]; cbn in Hs; [| discriminate].
    injection Hs as <-. left. rewrite (proj1 (fetchData_frame _ _ _)). reflexivity.
  - destruct (polling cfg); [| discriminate]. injection Hs as <-.
    left. apply fetchData_frame.
  - injection Hs as <-. left. rewrite (proj1 (commit_frame _ _ _)). reflexivity.
  - injection Hs as <-. left. apply fetchPage_frame.
  - injection Hs as <-. left. apply fetchPage_frame.
Qed.

(** X2.  Cache entries are never evicted: once a URL has an entry in
    [cacheRef.current], it keeps one for the rest of the hook's life,
    whatever events follow (each event writes at most one entry). *)
Theorem run_cache_keeps_entries (cfg : config) (st : state) (evs : list event)
    (st' : state) :
  run cfg st evs = Some st' ->
  forall k, is_Some (st_cache st !! k) -> is_Some (st_cache st' !! k).
Proof.
  intros Hr.
  apply (run_invariant (fun s => forall k, is_Some (st_cache st !! k) ->
                                         is_Some (st_cache s !! k)) cfg)
    with (evs := evs) (st := st); [| intros k Hk; exact Hk | exact Hr].
  intros s ev s' Hs Hstep k Hk.
  destruct (step_cache_grow cfg s s' ev Hstep) as [-> | (u & v & ->)];
    [exact (Hs k Hk) |].
  apply lookup_insert_is_Some'. right. exact (Hs k Hk).
Qed.

Lemma run_cache_keeps_entries_witness :
  let cfg := mk_config 0 1000 true None 1 in
  let st0 := match run cfg (mount cfg "A") [EvResolve 0 (OSuccess (VStr "x"))] with
             | Some st => st | None => initial "A" end in
  let evs := [EvFetchPage 2; EvResolve 0 (OSuccess (VStr "y")); EvFetchPage 3] in
  let st := match run cfg st0 evs with Some st => st | None => initial "A" end in
  run cfg st0 evs = Some st /\
  (forall k, is_Some (st_cache st0 !! k) -> is_Some (st_cache st !! k)).
Proof.
  intros cfg st0 evs st.
  assert (Hr : run cfg st0 evs = Some st) by (vm_compute; reflexivity).
  split; [exact Hr | exact (run_cache_keeps_entries cfg st0 evs st Hr)].
Defined.

(** X3.  With [cache] on and [batchSize = 1], a successful response
    stores its transformed value [v] under the request's URL (replacing any
    earlier entry), sets [data] to [v] and clears [error].  A later start
    on that URL is served from the store only when [v] is truthy; a falsy
    [v] ([null], [false], [0], [""]) is stored but never served, and the
    start issues a request again.  (The URL is not ["__proto__"], which
    the store's inherited accessor handles instead.) *)
Theorem success_cache_write (cfg : config) (st : state) (a a' : attempt)
    (raw v : value) :
  cfg_cache cfg = true -> cfg_batchSize cfg = 1 ->
  cfg_transformData cfg raw = inr v -> at_url a' = at_url a ->
  at_url a <> "__proto__" ->
  let st' := complete cfg st a (OSuccess raw) in
  st_data st' = v /\ st_error st' = None /\
  st_cache st' = <[at_url a := v]> (st_cache st) /\
  (truthy v = true ->
     st_data (fetchData cfg st' a') = v /\
     st_loading (fetchData cfg st' a') = false /\
     st_log (fetchData cfg st' a') = st_log st' /\
     st_pending (fetchData cfg st' a') = st_pending st') /\
  (truthy v = false ->
     st_log (fetchData cfg st' a') = st_log st' ++ [LRequest (at_url a) (at_retry a')] /\
     st_pending (fetchData cfg st' a') = st_pending st' ++ [a']).
Proof.
  intros Hcache Hb Ht Hu Hnp st'.
  assert (Hp : String.eqb (at_url a) "__proto__" = false)
    by (apply String.eqb_neq; exact Hnp).
  assert (Hs : st_data st' = v /\ st_error st' = None /\
               st_cache st' = <[at_url a := v]> (st_cache st)).
  { subst st'. unfold complete, on_response; cbv zeta.
    rewrite Ht, Hb, Hcache. cbn [Nat.eqb]. unfold cache_set. rewrite Hp.
    destruct (at_retry a =? 0); simpl_state; split_conj; reflexivity. }
  clearbody st'. destruct Hs as (Hd & He & Hc).
  assert (Hhit : cache_hit cfg st' (at_url a') = if truthy v then Some v else None).
  { unfold cache_hit, cache_get. rewrite Hcache, Hc, Hu, Hp, lookup_insert_eq.
    reflexivity. }
  split_conj; [exact Hd | exact He | exact Hc | |]; intros Hv; unfold fetchData;
    rewrite (cache_hit_cache cfg st' (setError None (setLoading true st')))
      by reflexivity;
    rewrite Hhit, Hv; simpl_state; [split_conj; reflexivity |].
  rewrite Hu. split; reflexivity.
Qed.

Lemma success_cache_write_witness :
  let cfg := mk_config 0 1000 true None 1 in
  let a := {| at_ctrl := 0; at_url := "A"; at_retry := 0 |} in
  let st := initial "A" in
  let st' := complete cfg st a (OSuccess (VStr "")) in
  (cfg_cache cfg = true /\ cfg_batchSize cfg = 1 /\
   cfg_transformData cfg (VStr "") = inr (VStr "") /\ at_url a = at_url a /\
   at_url a <> "__proto__") /\
  st_data st' = VStr "" /\ st_error st' = None /\
  st_cache st' = <[at_url a := VStr ""]> (st_cache st) /\
  (truthy (VStr "") = true ->
     st_data (fetchData cfg st' a) = VStr "" /\
     st_loading (fetchData cfg st' a) = false /\
     st_log (fetchData cfg st' a) = st_log st' /\
     st_pending (fetchData cfg st' a) = st_pending st') /\
  (truthy (VStr "") = false ->
     st_log (fetchData cfg st' a) = st_log st' ++ [LRequest (at_url a) (at_retry a)] /\
     st_pending (fetchData cfg st' a) = st_pending st' ++ [a]).
Proof.
  intros cfg a st st'.
  assert (H5 : at_url a <> "__proto__") by discriminate.
  split; [split_conj; first [reflexivity | exact H5] |].
  exact (success_cache_write cfg st a a (VStr "") (VStr "")
           eq_refl eq_refl eq_refl eq_refl H5).
Defined.

(** ** Failed requests *)



(** X5.  A response for a request whose controller was aborted (its
    cycle was superseded by a URL change) never changes [data], the cache
    or the batch buffer: axios rejects it with a [CanceledError].  When it
    was the last allowed attempt, [error], the retry timers and the
    interaction log are left as they were too. *)
Theorem aborted_response_discarded (cfg : config) (st st' : state)
    (i : nat) (a : attempt) (o : outcome) :
  st_pending st !! i = Some a -> at_ctrl a ∈ st_aborted st ->
  step cfg st (EvResolve i o) = Some st' ->
  st_data st' = st_data st /\ st_cache st' = st_cache st /\
  st_batch st' = st_batch st /\
  (cfg_retries cfg <= at_retry a ->
     st_error st' = st_error st /\ st_timers st' = st_timers st /\
     st_log st' = st_log st).
Proof.
  intros Hi Hab Hs. cbn [step] in Hs. rewrite Hi in Hs. cbn in Hs.
  injection Hs as <-.
  assert (Hd : delivered st a o = OCanceled).
  { unfold delivered, aborted. rewrite bool_decide_eq_true_2 by exact Hab.
    reflexivity. }
  rewrite Hd. unfold complete, on_axios_error; cbv zeta.
  cbn [response_status]. rewrite bool_decide_eq_false_2 by discriminate.
  cbn [andb].
  destruct (Nat.ltb (at_retry a) (cfg_retries cfg)) eqn:Hlt.
  - destruct (at_retry a =? 0); simpl_state; split_conj; try reflexivity.
    all: intros Hr; apply Nat.ltb_lt in Hlt; lia.
  - unfold aborted; simpl_state. rewrite bool_decide_eq_true_2 by exact Hab.
    cbn [negb].
    destruct (at_retry a =? 0); simpl_state; split_conj; try reflexivity;
      intros _; split_conj; reflexivity.
Qed.

Lemma aborted_response_discarded_witness :
  let cfg := mk_config 0 1000 false None 1 in
  let st := fetchPage cfg (mount cfg "A") 2 in
  let a := {| at_ctrl := 0; at_url := "A"; at_retry := 0 |} in
  let st' := match step cfg st (EvResolve 0 (OSuccess (VStr "late"))) with
             | Some s => s | None => st end in
  (st_pending st !! 0 = Some a /\ at_ctrl a ∈ st_aborted st /\
   step cfg st (EvResolve 0 (OSuccess (VStr "late"))) = Some st') /\
  st_data st' = st_data st /\ st_cache st' = st_cache st /\
  st_batch st' = st_batch st /\
  (cfg_retries cfg <= at_retry a ->
     st_error st' = st_error st /\ st_timers st' = st_timers st /\
     st_log st' = st_log st).
Proof.
  intros cfg st a st'.
  assert (H1 : st_pending st !! 0 = Some a) by (vm_compute; reflexivity).
  assert (H2 : at_ctrl a ∈ st_aborted st) by (vm_compute; set_solver).
  assert (H3 : step cfg st (EvResolve 0 (OSuccess (VStr "late"))) = Some st')
    by (vm_compute; reflexivity).
  split; [split_conj; assumption |].
  exact (aborted_response_discarded cfg st st' 0 a _ H1 H2 H3).
Defined.

(** X6.  When [transformData] throws on a response, [error] becomes
    [{message, type: 'general'}] with the thrown message and no status;
    nothing is retried, and [data], the cache, the batch buffer, the
    pending requests, the timers and the interaction log are unchanged.
    [loading] is cleared only for a first attempt. *)
Theorem transform_error_general (cfg : config) (st : state) (a : attempt)
    (raw : value) (msg : string) :
  cfg_transformData cfg raw = inl msg ->
  let st' := complete cfg st a (OSuccess raw) in
  st_error st' = Some {| err_message := VStr msg; err_status := None;
                         err_type := "general" |} /\
  st_data st' = st_data st /\ st_cache st' = st_cache st /\
  st_batch st' = st_batch st /\ st_pending st' = st_pending st /\
  st_timers st' = st_timers st /\ st_log st' = st_log st /\
  st_loading st' = (if at_retry a =? 0 then false else st_loading st).
Proof.
  intros Ht. cbv zeta. unfold complete, on_response; cbv zeta. rewrite Ht.
  destruct (at_retry a =? 0); simpl_state; split_conj; reflexivity.
Qed.

Definition failing_transform (v : value) : string + value :=
  match v with
  | VArr _ => inr v
  | _ => inl "Cannot read properties of undefined (reading 'map')"
  end.

Lemma transform_error_general_witness :
  let cfg := {| cfg_transformData := failing_transform; cfg_retries := 2;
                cfg_retryDelay := 1000; cfg_cache := true;
                cfg_pollInterval := None; cfg_batchSize := 1;
                cfg_onPageChange := false; cfg_onBatchedResponse := None;
                cfg_onAuthenticationError := false |} in
  let st := mount cfg "A" in
  let a := {| at_ctrl := 0; at_url := "A"; at_retry := 0 |} in
  let msg := "Cannot read properties of undefined (reading 'map')" in
  cfg_transformData cfg (VStr "oops") = inl msg /\
  let st' := complete cfg st a (OSuccess (VStr "oops")) in
  st_error st' = Some {| err_message := VStr msg; err_status := None;
                         err_type := "general" |} /\
  st_data st' = st_data st /\ st_cache st' = st_cache st /\
  st_batch st' = st_batch st /\ st_pending st' = st_pending st /\
  st_timers st' = st_timers st /\ st_log st' = st_log st /\
  st_loading st' = (if at_retry a =? 0 then false else st_loading st).
Proof.
  intros cfg st a msg.
  split; [reflexivity |].
  exact (transform_error_general cfg st a (VStr "oops") msg eq_refl).
Defined.

(** ** [loading] and superseded requests *)



(** ** Polling *)

(** X8.  A poll tick happens only when [pollInterval] is a non-zero
    number.  It calls [fetchData] with the effect's own controller: the
    controller is not renewed, nothing is aborted, the requests already in
    flight stay pending, and one more request for the current URL is added
    (unless the cache serves it). *)
Theorem poll_keeps_inflight (cfg : config) (st st' : state) :
  step cfg st EvPoll = Some st' ->
  (exists p, cfg_pollInterval cfg = Some p /\ p <> 0) /\
  st_ctrl st' = st_ctrl st /\ st_aborted st' = st_aborted st /\
  st_timers st' = st_timers st /\
  st_pending st' =
    st_pending st ++ (match cache_hit cfg st (st_url st) with
                      | Some _ => []
                      | None => [{| at_ctrl := st_ctrl st; at_url := st_url st;
                                    at_retry := 0 |}]
                      end).
Proof.
  intros Hs. cbn [step] in Hs. unfold polling in Hs.
  destruct (cfg_pollInterval cfg) as [p |] eqn:Hp; [| discriminate].
  destruct (Nat.eqb p 0) eqn:Hp0; cbn in Hs; [discriminate |].
  injection Hs as <-. split.
  { exists p. split; [reflexivity | apply Nat.eqb_neq, Hp0]. }
  unfold run_effect, fetchData; cbv zeta.
  rewrite (cache_hit_cache cfg st (setError None (setLoading true st))) by reflexivity.
  destruct (cache_hit cfg st _); simpl_state; rewrite ?app_nil_r;
    split_conj; reflexivity.
Qed.

Lemma poll_keeps_inflight_witness :
  let cfg := mk_config 0 1000 false (Some 5000) 1 in
  let st := mount cfg "A" in
  let st' := match step cfg st EvPoll with Some s => s | None => st end in
  step cfg st EvPoll = Some st' /\
  (exists p, cfg_pollInterval cfg = Some p /\ p <> 0) /\
  st_ctrl st' = st_ctrl st /\ st_aborted st' = st_aborted st /\
  st_timers st' = st_timers st /\
  st_pending st' =
    st_pending st ++ (match cache_hit cfg st (st_url st) with
                      | Some _ => []
                      | None => [{| at_ctrl := st_ctrl st; at_url := st_url st;
                                    at_retry := 0 |}]
                      end).
Proof.
  intros cfg st st'.
  assert (Hs : step cfg st EvPoll = Some st') by (vm_compute; reflexivity).
  split; [exact Hs | exact (poll_keeps_inflight cfg st st' Hs)].
Defined.




(** ** Requests per event *)







